(** * SlackMessenger: a shallow embedding of [slack_bot.py]

    The module under verification is one Python class, [SlackMessenger],
    with a constructor, a private attachment check ([_validate_file]) and
    one public operation ([send_dm]).  All three are effectful: they read
    the process environment and the file system, call the Slack Web API,
    write log records and raise or swallow exceptions.

    The embedding keeps those effects explicit:
    - everything outside the class (environment, file system, remote
      service) is a [World] of oracles;
    - every observable action is appended to a trace of [Event]s;
    - Python exceptions are an [Outcome] next to the normal result, and
      [try]/[except]/[finally] are combinators on a small state-and-error
      monad [M];
    - the local variable [files] of [send_dm], which the [finally] clause
      reads, is part of the monad's state and starts out unbound. *)

From Stdlib Require Import ZArith List Bool Lia Ascii String DecimalString.
From stdpp Require Import base option gmap strings.

Local Open Scope string_scope.
Local Open Scope Z_scope.
Local Open Scope list_scope.

(** ** Python strings

    [str] values are modelled as [string] (a sequence of 8-bit characters,
    i.e. the UTF-8 bytes of the text).  Case conversion moves the ASCII
    letters only; every extension in the allow-list is plain ASCII. *)

Module pystr.

Definition startswith (s prefix : string) : bool := String.prefix prefix s.

Definition is_upper (c : ascii) : bool :=
  let n := nat_of_ascii c in (65 <=? n)%nat && (n <=? 90)%nat.

Definition is_lower (c : ascii) : bool :=
  let n := nat_of_ascii c in (97 <=? n)%nat && (n <=? 122)%nat.

Definition lower_char (c : ascii) : ascii :=
  if is_upper c then ascii_of_nat (nat_of_ascii c + 32) else c.

Definition upper_char (c : ascii) : ascii :=
  if is_lower c then ascii_of_nat (nat_of_ascii c - 32) else c.

Fixpoint lower (s : string) : string :=
  match s with
  | EmptyString => EmptyString
  | String c s' => String (lower_char c) (lower s')
  end.

Fixpoint upper (s : string) : string :=
  match s with
  | EmptyString => EmptyString
  | String c s' => String (upper_char c) (upper s')
  end.

(** [s.split(sep)] for a one-character separator: always at least one
    field, empty fields kept. *)
Fixpoint split (sep : ascii) (s : string) : list string :=
  match s with
  | EmptyString => [EmptyString]
  | String c s' =>
      if Ascii.eqb c sep then EmptyString :: split sep s'
      else match split sep s' with
           | [] => [String c EmptyString]
           | f :: fs => String c f :: fs
           end
  end.

Fixpoint join (sep : string) (l : list string) : string :=
  match l with
  | [] => EmptyString
  | [x] => x
  | x :: l' => x +:+ sep +:+ join sep l'
  end.

(** [s.rfind(c)]: index of the last occurrence, [-1] when there is none. *)
Fixpoint rfind (c : ascii) (s : string) : Z :=
  match s with
  | EmptyString => -1
  | String d s' =>
      let r := rfind c s' in
      if 0 <=? r then r + 1
      else if Ascii.eqb d c then 0 else -1
  end.

Definition len (s : string) : Z := Z.of_nat (String.length s).

(** The slice [s[i:]] for [0 <= i]. *)
Definition slice_from (i : Z) (s : string) : string :=
  String.substring (Z.to_nat i) (String.length s - Z.to_nat i) s.

(** [str(n)] for an [int]. *)
Definition of_int (n : Z) : string := NilZero.string_of_int (Z.to_int n).

(** Truth value of a [str]: only the empty string is falsy. *)
Definition truthy (s : string) : bool :=
  match s with EmptyString => false | _ => true end.

(** [x in l] for a list of strings. *)
Definition contains (l : list string) (x : string) : bool :=
  existsb (String.eqb x) l.

End pystr.

(** ** pathlib (POSIX flavour)

    [Path(s)] splits [s] at ['/'], drops empty and ['.'] components and
    keeps the root; [str], [name] and [suffix] are computed from the
    parts.  [suffix] is the part of the final component from its last dot,
    unless that dot is the first or the last character. *)

Module pathlib.

Record Path := mkPath { root : string; parts : list string }.

Definition splitroot (s : string) : string :=
  if pystr.startswith s "/" then
    if pystr.startswith s "//" && negb (pystr.startswith s "///")
    then "//" else "/"
  else "".

Definition keep_part (x : string) : bool :=
  pystr.truthy x && negb (String.eqb x ".").

Definition of_str (s : string) : Path :=
  {| root := splitroot s;
     parts := List.filter keep_part (pystr.split "/" s) |}.

Definition str (p : Path) : string :=
  match root p, parts p with
  | EmptyString, [] => "."
  | r, ps => r +:+ pystr.join "/" ps
  end.

Definition name (p : Path) : string := List.last (parts p) "".

Definition suffix (p : Path) : string :=
  let n := name p in
  let i := pystr.rfind "." n in
  if (0 <? i) && (i <? pystr.len n - 1) then pystr.slice_from i n else "".

(** [p / s] *)
Definition truediv (p : Path) (s : string) : Path :=
  let q := of_str s in
  if pystr.truthy (root q) then q
  else {| root := root p; parts := (parts p ++ parts q)%list |}.

End pathlib.

Import pathlib.

(** A [file_path] argument is [Union[str, Path]]. *)
Inductive PathArg :=
| PStr (s : string)
| PPath (p : Path).

(** [Path(x)] *)
Definition Path_ (x : PathArg) : Path :=
  match x with
  | PStr s => pathlib.of_str s
  | PPath p => p
  end.

(** Truth value of an [Optional[Union[str, Path]]]: [None] and the empty
    [str] are falsy, a [Path] object is always truthy. *)
Definition path_arg_truthy (x : option PathArg) : bool :=
  match x with
  | None => false
  | Some (PStr s) => pystr.truthy s
  | Some (PPath _) => true
  end.

(** ** Exceptions

    The classes the code names or can meet.  All of them derive from
    [Exception]; interrupts such as [KeyboardInterrupt], which are not
    errors and which [except Exception] lets through on purpose, are not
    modelled. *)

Inductive ExcClass :=
| SlackApiError
| ValueError
| KeyError
| AttributeError
| UnboundLocalError
| OSError
| OtherException (cls : string).

Record exn := Exc { exc_class : ExcClass; exc_msg : string }.

(** [str(e)] *)
Definition str_exn (e : exn) : string := exc_msg e.

Definition is_SlackApiError (e : exn) : bool :=
  match exc_class e with SlackApiError => true | _ => false end.

(** ** Observable actions *)

Definition Handle := nat.

Inductive Level := DEBUG | INFO | WARNING | ERROR | CRITICAL.

(** The three methods of [WebClient] the class calls, with the keyword
    arguments it passes. *)
Inductive ApiCall :=
| conversations_open (users : list string)
| chat_postMessage (channel text : string) (mrkdwn : bool)
| files_upload (channels : string) (file : Handle) (title : string).

Inductive Event :=
| EvLog (lvl : Level) (msg : string)       (* self.logger.error / .info *)
| EvApi (c : ApiCall)                      (* a call on self.client *)
| EvOpen (h : Handle) (path : string)      (* path.open('rb') returned h *)
| EvClose (h : Handle)                     (* h.close() *)
| EvMkdir (path : string)                  (* Path(...).mkdir(...) *)
| EvAddHandler (log_file : string) (lvl : Z).  (* logger configured *)

Definition Trace := list Event.

Definition api_of (e : Event) : option ApiCall :=
  match e with EvApi c => Some c | _ => None end.

(** The remote calls of a trace, oldest first. *)
Definition api_calls (t : Trace) : list ApiCall := omap api_of t.

Definition log_of (e : Event) : option (Level * string) :=
  match e with EvLog l m => Some (l, m) | _ => None end.

Definition log_records (t : Trace) : list (Level * string) := omap log_of t.

Definition is_open_event (e : Event) : bool :=
  match e with EvOpen _ _ => true | _ => false end.

(** Handles are numbered in the order they are opened. *)
Definition fresh_handle (t : Trace) : Handle :=
  length (List.filter is_open_event t).

Fixpoint open_handles_from (acc : list Handle) (t : Trace) : list Handle :=
  match t with
  | [] => acc
  | EvOpen h _ :: t' => open_handles_from (acc ++ [h])%list t'
  | EvClose h :: t' =>
      open_handles_from (List.filter (fun h' => negb (Nat.eqb h h')) acc) t'
  | _ :: t' => open_handles_from acc t'
  end.

(** The handles a trace leaves open. *)
Definition open_handles (t : Trace) : list Handle := open_handles_from [] t.

(** ** The world outside the class *)

Inductive StatResult :=
| StatOk (st_size : Z)         (* the path exists *)
| StatNotFound                 (* ENOENT and the like *)
| StatError (e : exn).         (* any other failure of os.stat *)

(** What a successful Slack call returns: [response['channel']['id']] is
    either there or not. *)
Inductive Response :=
| RespChannel (id : string)
| RespOther.

Inductive ApiResult :=
| ApiOk (r : Response)
| ApiRaise (e : exn).

Record World := mkWorld {
  (** os.environ *)
  environ : gmap string string;
  (** os.stat on a path, keyed by [str(path)] *)
  fs_stat : string -> StatResult;
  (** open(path, 'rb'): [None] when a handle is returned *)
  fs_open : string -> option exn;
  (** mkdir(parents=True, exist_ok=True) *)
  fs_mkdir : string -> option exn;
  (** opening the log file for appending *)
  fs_open_log : string -> option exn;
  (** the remote service: its answer to a call, given the calls it has
      received so far *)
  slack_api : list ApiCall -> ApiCall -> ApiResult
}.

(** [os.getenv(key)] and [os.getenv(key, default)] *)
Definition getenv (w : World) (key : string) : option string :=
  environ w !! key.

Definition getenv_default (w : World) (key dflt : string) : string :=
  default dflt (getenv w key).

(** ** The monad of a method call

    A computation takes the state to a normal result or a raised
    exception, and to a new state either way: what was logged, sent or
    opened before an exception stays logged, sent or opened. *)

Inductive Outcome (A : Type) :=
| Return (a : A)
| Raise (e : exn).
Arguments Return {A} a.
Arguments Raise {A} e.

(** A local variable of a Python frame: reading it before its first
    assignment raises [UnboundLocalError]. *)
Inductive Local (A : Type) :=
| Unbound
| Bound (a : A).
Arguments Unbound {A}.
Arguments Bound {A} a.

Record State := mkState {
  trace : Trace;
  (** the local [files] of [send_dm]: [None], or the dict
      [{'file': handle}] *)
  files : Local (option Handle)
}.

Definition M (A : Type) : Type := State -> Outcome A * State.

#[global] Instance M_ret : MRet M := fun A a st => (Return a, st).

#[global] Instance M_bind : MBind M := fun A B f m st =>
  match m st with
  | (Return a, st') => f a st'
  | (Raise e, st') => (Raise e, st')
  end.

Definition raise {A} (e : exn) : M A := fun st => (Raise e, st).

Definition emit (ev : Event) : M unit := fun st =>
  (Return tt, {| trace := (trace st ++ [ev])%list; files := files st |}).

Definition get_trace : M Trace := fun st => (Return (trace st), st).

(** [files = v] *)
Definition set_files (v : option Handle) : M unit := fun st =>
  (Return tt, {| trace := trace st; files := Bound v |}).

(** Reading the local [files]. *)
Definition get_files : M (option Handle) := fun st =>
  match files st with
  | Bound v => (Return v, st)
  | Unbound =>
      (Raise (Exc UnboundLocalError
                "cannot access local variable 'files' where it is not associated with a value"),
       st)
  end.

(** [try: body except C as e: handler e], where [catches] tells whether
    an exception is an instance of [C]. *)
Definition try_except {A} (body : M A) (catches : exn -> bool)
    (handler : exn -> M A) : M A := fun st =>
  match body st with
  | (Return a, st') => (Return a, st')
  | (Raise e, st') => if catches e then handler e st' else (Raise e, st')
  end.

(** [try: body finally: cleanup].  The cleanup runs on every exit of the
    body, a [return] included; an exception raised by the cleanup
    replaces the pending result. *)
Definition try_finally {A} (body : M A) (cleanup : M unit) : M A := fun st =>
  match body st with
  | (o, st') =>
      match cleanup st' with
      | (Return _, st'') => (o, st'')
      | (Raise e, st'') => (Raise e, st'')
      end
  end.

(** *** Primitive actions *)

Definition logger_error (msg : string) : M unit := emit (EvLog ERROR msg).
Definition logger_info (msg : string) : M unit := emit (EvLog INFO msg).

(** [path.exists()]: false for a missing path, true for a present one;
    other failures of the underlying [stat] propagate. *)
Definition path_exists (w : World) (p : Path) : M bool :=
  match fs_stat w (pathlib.str p) with
  | StatOk _ => mret true
  | StatNotFound => mret false
  | StatError e => raise e
  end.

(** [path.stat().st_size] *)
Definition path_st_size (w : World) (p : Path) : M Z :=
  match fs_stat w (pathlib.str p) with
  | StatOk n => mret n
  | StatNotFound =>
      raise (Exc OSError ("[Errno 2] No such file or directory: '" +:+ pathlib.str p +:+ "'"))
  | StatError e => raise e
  end.

(** [path.open('rb')] *)
Definition path_open (w : World) (p : Path) : M Handle :=
  match fs_open w (pathlib.str p) with
  | Some e => raise e
  | None =>
      t ← get_trace;
      let h := fresh_handle t in
      emit (EvOpen h (pathlib.str p));;
      mret h
  end.

(** [handle.close()] *)
Definition handle_close (h : Handle) : M unit := emit (EvClose h).

(** A call on [self.client]: the call is recorded, then the service
    answers or raises. *)
Definition client_call (w : World) (c : ApiCall) : M Response :=
  t ← get_trace;
  emit (EvApi c);;
  match slack_api w (api_calls t) c with
  | ApiOk r => mret r
  | ApiRaise e => raise e
  end.

(** [response['channel']['id']] *)
Definition response_channel_id (r : Response) : M string :=
  match r with
  | RespChannel id => mret id
  | RespOther => raise (Exc KeyError "'channel'")
  end.

(** ** The class *)

Record Config := mkConfig {
  max_retries : Z;
  timeout : Z;
  max_file_size : Z;
  allowed_file_types : list string
}.

(** [WebClient(token=...)] *)
Record WebClient := mkWebClient { client_token : string }.

(** The logger after [_setup_logging]: its level and the file of its
    rotating handler. *)
Record Logger := mkLogger {
  logger_name : string;
  logger_level : Z;
  logger_file : string
}.

Record SlackMessenger := mkSlackMessenger {
  token : string;
  client : WebClient;
  config : Config;
  logger : Logger
}.

(** The dictionary literal of [__init__]. *)
Definition default_config : Config :=
  {| max_retries := 3;
     timeout := 30;
     max_file_size := 10 * 1024 * 1024;
     allowed_file_types :=
       [".pdf"; ".doc"; ".docx"; ".xls"; ".xlsx"; ".jpg"; ".png"; ".gif"; ".txt"] |}.

(** [SlackMessenger._validate_file] *)
Definition _validate_file (w : World) (self : SlackMessenger)
    (file_path : PathArg) : M bool :=
  let file_path := Path_ file_path in
  (* Check if file exists *)
  ex ← path_exists w file_path;
  if negb ex then
    logger_error ("File not found: " +:+ pathlib.str file_path);;
    mret false
  else
    (* Check file size *)
    sz ← path_st_size w file_path;
    if sz >? max_file_size (config self) then
      logger_error ("File exceeds maximum size of "
                    +:+ pystr.of_int (max_file_size (config self) / (1024 * 1024))
                    +:+ "MB");;
      mret false
    else
      (* Check file type *)
      if negb (pystr.contains (allowed_file_types (config self))
                 (pystr.lower (pathlib.suffix file_path))) then
        logger_error ("File type " +:+ pathlib.suffix file_path +:+ " not allowed");;
        mret false
      else mret true.

(** [file_path.name] on the local [file_path], which holds a [Path] once
    line 164 has rebound it. *)
Definition attr_name (file_path : option PathArg) : M string :=
  match file_path with
  | Some (PPath p) => mret (pathlib.name p)
  | Some (PStr _) => raise (Exc AttributeError "'str' object has no attribute 'name'")
  | None => raise (Exc AttributeError "'NoneType' object has no attribute 'name'")
  end.

(** The inner [try] of [send_dm] (source lines 170-195). *)
Definition send_message (w : World) (user_id message : string)
    (formatting : bool) (file_path : option PathArg) : M bool :=
  try_except
    ((* First, open a DM channel *)
     response ← client_call w (conversations_open [user_id]);
     channel_id ← response_channel_id response;
     (* Send the message *)
     client_call w (chat_postMessage channel_id message formatting);;
     (* Upload file if provided *)
     fs ← get_files;
     match fs with
     | Some h =>
         title ← attr_name file_path;
         client_call w (files_upload channel_id h title);;
         mret tt
     | None => mret tt
     end;;
     logger_info ("Successfully sent message to " +:+ user_id);;
     mret true)
    is_SlackApiError
    (fun e =>
       logger_error ("Failed to send message: " +:+ str_exn e);;
       mret false).

(** The body of [SlackMessenger.send_dm] as a computation on its frame. *)
Definition send_dm_frame (w : World) (self : SlackMessenger)
    (user_id message : string) (formatting : bool)
    (file_path : option PathArg) : M bool :=
  try_finally
    (try_except
       ((* Validate user_id format *)
        if negb (pystr.startswith user_id "U") then
          logger_error ("Invalid user ID format: " +:+ user_id);;
          mret false
        else
          (* Handle file attachment if provided *)
          set_files None;;
          match file_path with
          | Some x =>
              if path_arg_truthy (Some x) then
                let file_path := Path_ x in
                ok ← _validate_file w self (PPath file_path);
                if negb ok then mret false
                else
                  h ← path_open w file_path;
                  set_files (Some h);;
                  send_message w user_id message formatting (Some (PPath file_path))
              else send_message w user_id message formatting (Some x)
          | None => send_message w user_id message formatting None
          end)
       (fun _ => true)
       (fun e =>
          logger_error ("Unexpected error: " +:+ str_exn e);;
          mret false))
    ((* Clean up file handler if it was opened *)
     fs ← get_files;
     match fs with
     | Some h => handle_close h
     | None => mret tt
     end).

(** A call [self.send_dm(user_id, message, formatting, file_path)] made
    when the trace is [t]: a fresh frame, in which [files] is not bound
    yet. *)
Definition send_dm (w : World) (self : SlackMessenger)
    (user_id message : string) (formatting : bool)
    (file_path : option PathArg) (t : Trace) : Outcome bool * Trace :=
  let '(o, st) := send_dm_frame w self user_id message formatting file_path
                    {| trace := t; files := Unbound |} in
  (o, trace st).

(** A call [self._validate_file(file_path)] made when the trace is [t]. *)
Definition validate_file_call (w : World) (self : SlackMessenger)
    (file_path : PathArg) (t : Trace) : Outcome bool * Trace :=
  let '(o, st) := _validate_file w self file_path
                    {| trace := t; files := Unbound |} in
  (o, trace st).

(** *** Construction *)

(** [a or b] on [Optional[str]] values. *)
Definition py_or (a b : option string) : option string :=
  match a with
  | Some s => if pystr.truthy s then a else b
  | None => b
  end.

(** [getattr(logging, name)] followed by [setLevel]: the level constants
    of the [logging] module.  Any other name raises. *)
Definition logging_level (name : string) : option Z :=
  if String.eqb name "CRITICAL" then Some 50
  else if String.eqb name "FATAL" then Some 50
  else if String.eqb name "ERROR" then Some 40
  else if String.eqb name "WARNING" then Some 30
  else if String.eqb name "WARN" then Some 30
  else if String.eqb name "INFO" then Some 20
  else if String.eqb name "DEBUG" then Some 10
  else if String.eqb name "NOTSET" then Some 0
  else None.

(** [SlackMessenger._setup_logging]; the result is what the method
    stores in [self.logger]. *)
Definition _setup_logging (w : World) : M Logger :=
  let log_path := getenv_default w "SLACK_LOG_PATH" "logs" in
  let log_level := getenv_default w "SLACK_LOG_LEVEL" "INFO" in
  (* Create logs directory if it doesn't exist *)
  match fs_mkdir w (pathlib.str (pathlib.of_str log_path)) with
  | Some e => raise e
  | None =>
      emit (EvMkdir (pathlib.str (pathlib.of_str log_path)));;
      let log_file := pathlib.truediv (pathlib.of_str log_path) "slack_messenger.log" in
      (* Set up rotating file handler *)
      match fs_open_log w (pathlib.str log_file) with
      | Some e => raise e
      | None =>
          (* Configure logger *)
          match logging_level (pystr.upper log_level) with
          | None =>
              raise (Exc AttributeError
                       ("module 'logging' has no attribute '"
                        +:+ pystr.upper log_level +:+ "'"))
          | Some lvl =>
              emit (EvAddHandler (pathlib.str log_file) lvl);;
              mret {| logger_name := "slack_messenger";
                      logger_level := lvl;
                      logger_file := pathlib.str log_file |}
          end
      end
  end.

(** The instance [__init__] leaves behind when nothing raises. *)
Definition initialized (tok : string) (lg : Logger) : SlackMessenger :=
  {| token := tok;
     (* Start Slack client *)
     client := {| client_token := tok |};
     (* Set up configuration *)
     config := default_config;
     logger := lg |}.

(** The [ValueError] of line 68. *)
Definition missing_token_error : exn :=
  Exc ValueError
    "Slack bot token not provided and SLACK_BOT_TOKEN not found in environment".

(** [SlackMessenger.__init__]: the instance, or the exception that
    leaves the caller without one.  [not self.token] holds for [None]
    and for the empty string. *)
Definition __init__ (w : World) (token : option string) : M SlackMessenger :=
  match py_or token (getenv w "SLACK_BOT_TOKEN") with
  | Some tok =>
      if negb (pystr.truthy tok) then raise missing_token_error
      else
        (* Set up logging *)
        lg ← _setup_logging w;
        mret (initialized tok lg)
  | None => raise missing_token_error
  end.

(** A call [SlackMessenger(token)] made when the trace is [t]. *)
Definition construct (w : World) (token : option string) (t : Trace)
    : Outcome SlackMessenger * Trace :=
  let '(o, st) := __init__ w token {| trace := t; files := Unbound |} in
  (o, trace st).

(** ** Concrete worlds and instances used as test inputs *)

Module Fixtures.

(** A 2MB [report.pdf] (and a copy under [docs/q3]), an 11MB
    [huge.pdf], an [exact.txt] of exactly 10MB, a [setup.exe] and an
    upper-case [SCAN.PDF]; nothing else. *)
Definition disk (p : string) : StatResult :=
  if String.eqb p "." then StatOk 4096
  else if String.eqb p "report.pdf" then StatOk (2 * 1024 * 1024)
  else if String.eqb p "docs/q3/report.pdf" then StatOk (2 * 1024 * 1024)
  else if String.eqb p "huge.pdf" then StatOk (11 * 1024 * 1024)
  else if String.eqb p "exact.txt" then StatOk (10 * 1024 * 1024)
  else if String.eqb p "setup.exe" then StatOk 1024
  else if String.eqb p "SCAN.PDF" then StatOk 1024
  else StatNotFound.

(** A service that opens channel [D0001] and accepts every call. *)
Definition service_up (_ : list ApiCall) (c : ApiCall) : ApiResult :=
  match c with
  | conversations_open _ => ApiOk (RespChannel "D0001")
  | _ => ApiOk RespOther
  end.

(** A service that opens the channel and rejects the message. *)
Definition service_rejects_post (_ : list ApiCall) (c : ApiCall) : ApiResult :=
  match c with
  | conversations_open _ => ApiOk (RespChannel "D0001")
  | chat_postMessage _ _ _ => ApiRaise (Exc SlackApiError "channel_not_found")
  | _ => ApiOk RespOther
  end.

(** A service whose answer to [conversations_open] carries no channel. *)
Definition service_malformed (_ : list ApiCall) (_ : ApiCall) : ApiResult :=
  ApiOk RespOther.

Definition world_with (env : gmap string string)
    (api : list ApiCall -> ApiCall -> ApiResult) : World :=
  {| environ := env;
     fs_stat := disk;
     fs_open := fun _ => None;
     fs_mkdir := fun _ => None;
     fs_open_log := fun _ => None;
     slack_api := api |}.

Definition w_ok : World :=
  world_with {[ "SLACK_BOT_TOKEN" := "xoxb-env" ]} service_up.

Definition w_no_token : World := world_with ∅ service_up.

Definition w_post_fails : World :=
  world_with {[ "SLACK_BOT_TOKEN" := "xoxb-env" ]} service_rejects_post.

Definition w_malformed : World :=
  world_with {[ "SLACK_BOT_TOKEN" := "xoxb-env" ]} service_malformed.

Definition w_bad_level : World :=
  world_with {[ "SLACK_BOT_TOKEN" := "xoxb-env"; "SLACK_LOG_LEVEL" := "verbose" ]}
             service_up.

Definition messenger : SlackMessenger :=
  initialized "xoxb-env"
    {| logger_name := "slack_messenger";
       logger_level := 20;
       logger_file := "logs/slack_messenger.log" |}.

End Fixtures.

(** ** Vocabulary of the specification *)

(** Two characters are the same letter when they are equal or one is the
    upper-case form of the other. *)
Definition same_letter (a b : ascii) : bool :=
  Ascii.eqb a b
  || (pystr.is_upper a && Ascii.eqb (pystr.lower_char a) b)
  || (pystr.is_upper b && Ascii.eqb (pystr.lower_char b) a).

(** Case-insensitive comparison of two strings, position by position. *)
Fixpoint eq_ignore_case (s t : string) : bool :=
  match s, t with
  | EmptyString, EmptyString => true
  | String a s', String b t' => same_letter a b && eq_ignore_case s' t'
  | _, _ => false
  end.

(** The allow-list as the specification writes it. *)
Definition spec_allow_list : list string :=
  [".pdf"; ".doc"; ".docx"; ".xls"; ".xlsx"; ".jpg"; ".png"; ".gif"; ".txt"].

Definition allowed_ignoring_case (ext : string) : bool :=
  existsb (eq_ignore_case ext) spec_allow_list.

Fixpoint no_upper (s : string) : bool :=
  match s with
  | EmptyString => true
  | String c s' => negb (pystr.is_upper c) && no_upper s'
  end.

(** A source holds a credential when it holds a non-empty string. *)
Definition holds_credential (source : option string) : bool :=
  match source with
  | Some s => pystr.truthy s
  | None => false
  end.

(** A credential is available from the explicit argument or from the
    environment variable. *)
Definition credential_available (w : World) (token : option string) : bool :=
  holds_credential token || holds_credential (getenv w "SLACK_BOT_TOKEN").

(** Where the log goes and at which level, as the environment says. *)
Definition log_dir (w : World) : string :=
  pathlib.str (pathlib.of_str (getenv_default w "SLACK_LOG_PATH" "logs")).

Definition log_file (w : World) : string :=
  pathlib.str (pathlib.truediv
                 (pathlib.of_str (getenv_default w "SLACK_LOG_PATH" "logs"))
                 "slack_messenger.log").

Definition log_level_name (w : World) : string :=
  pystr.upper (getenv_default w "SLACK_LOG_LEVEL" "INFO").

(** The logger a successful set-up configures at level [lvl]. *)
Definition configured_logger (w : World) (lvl : Z) : Logger :=
  {| logger_name := "slack_messenger";
     logger_level := lvl;
     logger_file := log_file w |}.

(** The working directory exists.  [Path('')] is ['.'], so this is what
    makes the empty path an existing one for [Path.exists]. *)
Definition cwd_exists (w : World) : Prop := fs_stat w "." <> StatNotFound.

(** ** The script and its environment *)

(** [os.environ[key] = value] *)
Definition setenv (w : World) (key value : string) : World :=
  {| environ := <[key := value]> (environ w);
     fs_stat := fs_stat w;
     fs_open := fs_open w;
     fs_mkdir := fs_mkdir w;
     fs_open_log := fs_open_log w;
     slack_api := slack_api w |}.

(** [self.config['allowed_file_types'] = l] *)
Definition set_allowed_file_types (self : SlackMessenger) (l : list string)
    : SlackMessenger :=
  {| token := token self;
     client := client self;
     config := {| max_retries := max_retries (config self);
                  timeout := timeout (config self);
                  max_file_size := max_file_size (config self);
                  allowed_file_types := l |};
     logger := logger self |}.

Definition is_handler_event (e : Event) : bool :=
  match e with EvAddHandler _ _ => true | _ => false end.

(** How many handlers a trace has added to the process-wide logger
    ['slack_messenger']. *)
Definition handler_count (t : Trace) : nat :=
  length (List.filter is_handler_event t).

(** The [__main__] block (source lines 206-222): an instance from the
    environment, then two sends whose results are dropped.  An exception
    ends the script where it is raised. *)
Definition main (w : World) (t : Trace) : Outcome unit * Trace :=
  (* Initialize the messenger *)
  match construct w None t with
  | (Raise e, t1) => (Raise e, t1)
  | (Return slack, t1) =>
      (* Example: Send a simple message *)
      match send_dm w slack "U1234567" "Hello! This is a test message."
                    false None t1 with
      | (Raise e, t2) => (Raise e, t2)
      | (Return _, t2) =>
          (* Example: Send a formatted message with a file *)
          match send_dm w slack "U1234567"
                        "*Important*: Please review the attached document."
                        true (Some (PStr "path/to/document.pdf")) t2 with
          | (Raise e, t3) => (Raise e, t3)
          | (Return _, t3) => (Return tt, t3)
          end
      end
  end.

(** Worlds in which the file system or the upload misbehaves. *)

Module Faults.

Definition permission_denied (p : string) : exn :=
  Exc OSError ("[Errno 13] Permission denied: '" +:+ p +:+ "'").

(** The disk of [Fixtures], with a directory that cannot be searched. *)
Definition disk (p : string) : StatResult :=
  if String.eqb p "vault/report.pdf" then StatError (permission_denied p)
  else Fixtures.disk p.

(** [SCAN.PDF] is there but cannot be read. *)
Definition open_rb (p : string) : option exn :=
  if String.eqb p "SCAN.PDF" then Some (permission_denied p) else None.

(** A service that takes the message and refuses the file. *)
Definition service_rejects_upload (_ : list ApiCall) (c : ApiCall) : ApiResult :=
  match c with
  | conversations_open _ => ApiOk (RespChannel "D0001")
  | chat_postMessage _ _ _ => ApiOk RespOther
  | files_upload _ _ _ => ApiRaise (Exc SlackApiError "file_too_large")
  end.

Definition w_faulty : World :=
  {| environ := {[ "SLACK_BOT_TOKEN" := "xoxb-env" ]};
     fs_stat := disk;
     fs_open := open_rb;
     fs_mkdir := fun _ => None;
     fs_open_log := fun _ => None;
     slack_api := service_rejects_upload |}.

End Faults.

(** * Properties *)

(** Unfolds a method call down to the state transformer it denotes. *)
Ltac unfold_call :=
  unfold send_dm, validate_file_call, construct, send_dm_frame, send_message,
    _validate_file, __init__, _setup_logging, attr_name, response_channel_id,
    client_call, path_open, path_exists, path_st_size, handle_close,
    logger_error, logger_info, try_finally, try_except, get_trace, get_files,
    set_files, emit, raise, mbind, M_bind, mret, M_ret in *.

(** ** The path model on a few inputs *)

Example path_of_empty_string : pathlib.str (pathlib.of_str "") = ".".
Proof. reflexivity. Qed.

Example path_is_normalised :
  pathlib.str (pathlib.of_str "docs//q3/./report.pdf") = "docs/q3/report.pdf"
  /\ pathlib.name (pathlib.of_str "docs//q3/./report.pdf") = "report.pdf".
Proof. split; reflexivity. Qed.

Example suffix_samples :
  pathlib.suffix (pathlib.of_str "SCAN.PDF") = ".PDF"
  /\ pathlib.suffix (pathlib.of_str "backup.tar.gz") = ".gz"
  /\ pathlib.suffix (pathlib.of_str ".pdf") = ""
  /\ pathlib.suffix (pathlib.of_str "notes") = "".
Proof. repeat split; reflexivity. Qed.

Example log_file_default :
  log_file Fixtures.w_ok = "logs/slack_messenger.log".
Proof. reflexivity. Qed.

(** ** User id check *)

Section EarlyExit.

Variables (w : World) (self : SlackMessenger).

(** What the source does for a user id without the prefix: the error is
    logged and [return False] is reached, but the [finally] clause then
    reads [files], which is assigned only after the prefix check. *)
Lemma send_dm_without_prefix user_id message formatting file_path t :
  pystr.startswith user_id "U" = false ->
  send_dm w self user_id message formatting file_path t
  = (Raise (Exc UnboundLocalError
              "cannot access local variable 'files' where it is not associated with a value"),
     (t ++ [EvLog ERROR ("Invalid user ID format: " +:+ user_id)])%list).
Proof.
  intros Hprefix. unfold_call. rewrite Hprefix. reflexivity.
Qed.

End EarlyExit.

(** C1 (code bug): [send_dm] is meant never to raise, yet the call
    [send_dm("X12345", "Hello!")] ends in an [UnboundLocalError] raised by
    the [finally] clause, whatever the world and the instance. *)
Theorem send_dm_raises_on_X12345 (w : World) (self : SlackMessenger) :
  send_dm w self "X12345" "Hello!" false None []
  = (Raise (Exc UnboundLocalError
              "cannot access local variable 'files' where it is not associated with a value"),
     [EvLog ERROR "Invalid user ID format: X12345"]).
Proof. apply send_dm_without_prefix. reflexivity. Qed.

(** C2 (code bug): for a user id that does not start with ['U'] the call
    logs the error and makes no remote call, but it does not return
    [False]: it raises. *)
Theorem send_dm_bad_prefix_escapes (w : World) (self : SlackMessenger)
    (user_id message : string) (formatting : bool)
    (file_path : option PathArg) (t : Trace) :
  pystr.startswith user_id "U" = false ->
  exists e t',
    send_dm w self user_id message formatting file_path t = (Raise e, t')
    /\ exc_class e = UnboundLocalError
    /\ log_records t' = (log_records t
                         ++ [(ERROR, "Invalid user ID format: " +:+ user_id)])%list
    /\ api_calls t' = api_calls t.
Proof.
  intros Hprefix. eexists _, _. split.
  - apply send_dm_without_prefix, Hprefix.
  - unfold log_records, api_calls. rewrite !omap_app. simpl.
    rewrite app_nil_r. auto.
Qed.

Lemma send_dm_bad_prefix_escapes_witness :
  pystr.startswith "X12345" "U" = false /\
  exists e t',
    send_dm Fixtures.w_ok Fixtures.messenger "X12345" "Hello!" true
            (Some (PStr "report.pdf")) [] = (Raise e, t')
    /\ exc_class e = UnboundLocalError
    /\ log_records t' = [(ERROR, "Invalid user ID format: X12345")]
    /\ api_calls t' = [].
Proof.
  split; [reflexivity|].
  apply (send_dm_bad_prefix_escapes Fixtures.w_ok Fixtures.messenger
           "X12345" "Hello!" true (Some (PStr "report.pdf")) []).
  reflexivity.
Defined.

(** ** Missing attachment *)

Section MissingFile.

Variables (w : World) (self : SlackMessenger).

Lemma validate_missing x t :
  fs_stat w (pathlib.str (Path_ x)) = StatNotFound ->
  validate_file_call w self x t
  = (Return false,
     (t ++ [EvLog ERROR ("File not found: " +:+ pathlib.str (Path_ x))])%list).
Proof.
  intros Hstat. unfold_call. rewrite Hstat. reflexivity.
Qed.

(** A path that [Path.exists] reports missing is a truthy argument, as
    long as the working directory is there. *)
Lemma missing_path_is_truthy x :
  cwd_exists w ->
  fs_stat w (pathlib.str (Path_ x)) = StatNotFound ->
  path_arg_truthy (Some x) = true.
Proof.
  intros Hcwd Hstat. destruct x as [s|p]; [|reflexivity].
  destruct s as [|c s]; [|reflexivity].
  exfalso. apply Hcwd. exact Hstat.
Qed.

Lemma send_dm_missing user_id message formatting x t :
  pystr.startswith user_id "U" = true ->
  path_arg_truthy (Some x) = true ->
  fs_stat w (pathlib.str (Path_ x)) = StatNotFound ->
  send_dm w self user_id message formatting (Some x) t
  = (Return false,
     (t ++ [EvLog ERROR ("File not found: " +:+ pathlib.str (Path_ x))])%list).
Proof.
  intros Hprefix Htruthy Hstat. unfold_call.
  rewrite Hprefix, Htruthy. cbn [negb Path_]. rewrite Hstat. reflexivity.
Qed.

End MissingFile.

(** C3: a [file_path] that does not exist makes [_validate_file] return
    [False], and makes [send_dm] (for a user id starting with ['U'])
    return [False] after logging the missing path, with no remote call. *)
Theorem missing_file_aborts_send (w : World) (self : SlackMessenger)
    (user_id message : string) (formatting : bool) (x : PathArg) (t : Trace) :
  cwd_exists w ->
  pystr.startswith user_id "U" = true ->
  fs_stat w (pathlib.str (Path_ x)) = StatNotFound ->
  exists t',
    validate_file_call w self x t = (Return false, t')
    /\ send_dm w self user_id message formatting (Some x) t = (Return false, t')
    /\ t' = (t ++ [EvLog ERROR ("File not found: " +:+ pathlib.str (Path_ x))])%list
    /\ api_calls t' = api_calls t.
Proof.
  intros Hcwd Hprefix Hstat. eexists. split; [|split; [|split]].
  - apply validate_missing, Hstat.
  - apply send_dm_missing; [exact Hprefix| |exact Hstat].
    apply (missing_path_is_truthy w x Hcwd Hstat).
  - reflexivity.
  - unfold api_calls. rewrite omap_app. apply app_nil_r.
Qed.

Lemma missing_file_aborts_send_witness :
  cwd_exists Fixtures.w_ok /\
  exists t',
    validate_file_call Fixtures.w_ok Fixtures.messenger (PStr "nowhere/report.pdf") []
    = (Return false, t')
    /\ send_dm Fixtures.w_ok Fixtures.messenger "U1234567" "See attached" false
               (Some (PStr "nowhere/report.pdf")) [] = (Return false, t')
    /\ t' = [EvLog ERROR "File not found: nowhere/report.pdf"]
    /\ api_calls t' = [].
Proof.
  assert (Hcwd : cwd_exists Fixtures.w_ok) by (unfold cwd_exists; discriminate).
  split; [exact Hcwd|].
  apply (missing_file_aborts_send Fixtures.w_ok Fixtures.messenger "U1234567"
           "See attached" false (PStr "nowhere/report.pdf") [] Hcwd);
    reflexivity.
Defined.

(** ** The attachment check *)

Section CaseFolding.

Lemma same_letter_lower a b :
  pystr.is_upper b = false ->
  same_letter a b = Ascii.eqb (pystr.lower_char a) b.
Proof.
  intros Hb. unfold same_letter, pystr.lower_char. rewrite Hb.
  rewrite andb_false_l, orb_false_r.
  destruct (pystr.is_upper a) eqn:Ha; cbn [andb].
  - destruct (Ascii.eqb_spec a b) as [->|_]; [congruence|reflexivity].
  - apply orb_false_r.
Qed.

Lemma eq_ignore_case_lower s e :
  no_upper e = true ->
  eq_ignore_case s e = String.eqb (pystr.lower s) e.
Proof.
  revert e. induction s as [|a s IH]; intros [|b e] He; cbn in *; try reflexivity.
  apply andb_true_iff in He as [Hb He].
  apply negb_true_iff in Hb.
  rewrite same_letter_lower, IH by assumption.
  destruct (Ascii.eqb (pystr.lower_char a) b); reflexivity.
Qed.

Lemma existsb_ignore_case ext (l : list string) :
  forallb no_upper l = true ->
  existsb (eq_ignore_case ext) l = pystr.contains l (pystr.lower ext).
Proof.
  unfold pystr.contains. induction l as [|e l IH]; cbn; [reflexivity|].
  intros [He Hl]%andb_true_iff.
  rewrite eq_ignore_case_lower, IH by assumption. reflexivity.
Qed.

(** The membership test of the code is the case-insensitive membership
    of the specification. *)
Lemma allowed_ignoring_case_code ext :
  pystr.contains (allowed_file_types default_config) (pystr.lower ext)
  = allowed_ignoring_case ext.
Proof.
  symmetry. apply existsb_ignore_case. reflexivity.
Qed.

End CaseFolding.

Section Validation.

Variables (w : World) (self : SlackMessenger) (x : PathArg) (t : Trace).
Hypothesis Hconfig : config self = default_config.

Lemma validate_oversized n :
  fs_stat w (pathlib.str (Path_ x)) = StatOk n ->
  n > 10 * 1024 * 1024 ->
  validate_file_call w self x t
  = (Return false, (t ++ [EvLog ERROR "File exceeds maximum size of 10MB"])%list).
Proof.
  intros Hstat Hn. unfold_call. rewrite Hstat, Hconfig. cbn [negb].
  replace (n >? max_file_size default_config) with true; [reflexivity|].
  symmetry. apply Z.gtb_lt. unfold default_config, max_file_size. lia.
Qed.

Lemma validate_size_ok n :
  fs_stat w (pathlib.str (Path_ x)) = StatOk n ->
  n <= 10 * 1024 * 1024 ->
  validate_file_call w self x t
  = if pystr.contains (allowed_file_types default_config)
         (pystr.lower (pathlib.suffix (Path_ x)))
    then (Return true, t)
    else (Return false,
          (t ++ [EvLog ERROR ("File type " +:+ pathlib.suffix (Path_ x)
                              +:+ " not allowed")])%list).
Proof.
  intros Hstat Hn. unfold_call. rewrite Hstat, Hconfig. cbn [negb].
  replace (n >? max_file_size default_config) with false.
  - destruct (pystr.contains _ _); reflexivity.
  - symmetry. rewrite Z.gtb_ltb. apply Z.ltb_ge.
    unfold default_config, max_file_size. lia.
Qed.

End Validation.

(** C5: [_validate_file] checks existence, then size, then extension,
    and stops at the first check that fails: a missing path is reported
    as such; an existing file larger than [10 * 1024 * 1024] bytes is
    rejected for its size whatever its extension; a file of at most that
    size, the limit itself included, passes the size check and is judged
    on its extension alone. *)
Theorem validate_file_check_order (w : World) (self : SlackMessenger)
    (x : PathArg) (t : Trace) :
  config self = default_config ->
  (fs_stat w (pathlib.str (Path_ x)) = StatNotFound ->
   validate_file_call w self x t
   = (Return false,
      (t ++ [EvLog ERROR ("File not found: " +:+ pathlib.str (Path_ x))])%list))
  /\ (forall n,
        fs_stat w (pathlib.str (Path_ x)) = StatOk n ->
        n > 10 * 1024 * 1024 ->
        validate_file_call w self x t
        = (Return false,
           (t ++ [EvLog ERROR "File exceeds maximum size of 10MB"])%list))
  /\ (forall n,
        fs_stat w (pathlib.str (Path_ x)) = StatOk n ->
        n <= 10 * 1024 * 1024 ->
        validate_file_call w self x t
        = if pystr.contains (allowed_file_types default_config)
               (pystr.lower (pathlib.suffix (Path_ x)))
          then (Return true, t)
          else (Return false,
                (t ++ [EvLog ERROR ("File type " +:+ pathlib.suffix (Path_ x)
                                    +:+ " not allowed")])%list)).
Proof.
  intros Hconfig. split; [|split].
  - apply validate_missing.
  - intros n. apply validate_oversized, Hconfig.
  - intros n. apply validate_size_ok, Hconfig.
Qed.

Lemma validate_file_check_order_witness :
  validate_file_call Fixtures.w_ok Fixtures.messenger (PStr "huge.pdf") []
  = (Return false, [EvLog ERROR "File exceeds maximum size of 10MB"])
  /\ validate_file_call Fixtures.w_ok Fixtures.messenger (PStr "exact.txt") []
     = (Return true, []).
Proof.
  split.
  - apply (proj1 (proj2 (validate_file_check_order Fixtures.w_ok
                           Fixtures.messenger (PStr "huge.pdf") [] eq_refl))
             (11 * 1024 * 1024)); [reflexivity | lia].
  - apply (proj2 (proj2 (validate_file_check_order Fixtures.w_ok
                           Fixtures.messenger (PStr "exact.txt") [] eq_refl))
             (10 * 1024 * 1024)); [reflexivity | lia].
Defined.

(** C6: for an existing file of acceptable size, [_validate_file]
    succeeds exactly when the file's extension is, ignoring case, one of
    .pdf .doc .docx .xls .xlsx .jpg .png .gif .txt; a rejection is logged
    with the extension. *)
Theorem validate_file_extension (w : World) (self : SlackMessenger)
    (x : PathArg) (t : Trace) (n : Z) :
  config self = default_config ->
  fs_stat w (pathlib.str (Path_ x)) = StatOk n ->
  n <= 10 * 1024 * 1024 ->
  exists t',
    validate_file_call w self x t
    = (Return (allowed_ignoring_case (pathlib.suffix (Path_ x))), t')
    /\ t' = if allowed_ignoring_case (pathlib.suffix (Path_ x)) then t
            else (t ++ [EvLog ERROR ("File type " +:+ pathlib.suffix (Path_ x)
                                     +:+ " not allowed")])%list.
Proof.
  intros Hconfig Hstat Hn.
  rewrite (validate_size_ok w self x t Hconfig n Hstat Hn).
  rewrite allowed_ignoring_case_code.
  destruct (allowed_ignoring_case _); eexists; split; reflexivity.
Qed.

Lemma validate_file_extension_witness :
  (exists t',
     validate_file_call Fixtures.w_ok Fixtures.messenger (PStr "SCAN.PDF") []
     = (Return true, t') /\ t' = [])
  /\ (exists t',
        validate_file_call Fixtures.w_ok Fixtures.messenger (PStr "setup.exe") []
        = (Return false, t')
        /\ t' = [EvLog ERROR "File type .exe not allowed"]).
Proof.
  split.
  - apply (validate_file_extension Fixtures.w_ok Fixtures.messenger
             (PStr "SCAN.PDF") [] 1024 eq_refl eq_refl). lia.
  - apply (validate_file_extension Fixtures.w_ok Fixtures.messenger
             (PStr "setup.exe") [] 1024 eq_refl eq_refl). lia.
Defined.

(** ** Construction *)

Section Construction.

Variable w : World.

Lemma construct_without_credential token t :
  credential_available w token = false ->
  construct w token t = (Raise missing_token_error, t).
Proof.
  unfold credential_available, holds_credential. intros H.
  apply orb_false_iff in H as [Htok Henv]. unfold_call. unfold py_or.
  destruct token as [s|].
  - rewrite Htok. destruct (getenv w "SLACK_BOT_TOKEN") as [s'|]; [|reflexivity].
    rewrite Henv. reflexivity.
  - destruct (getenv w "SLACK_BOT_TOKEN") as [s'|]; [|reflexivity].
    rewrite Henv. reflexivity.
Qed.

(** With a credential the constructor gets past its guard with the
    explicit token, or with the environment's when the explicit one is
    absent or empty. *)
Lemma credential_chosen token :
  credential_available w token = true ->
  exists tok,
    py_or token (getenv w "SLACK_BOT_TOKEN") = Some tok
    /\ pystr.truthy tok = true
    /\ (holds_credential token = true -> token = Some tok)
    /\ (holds_credential token = false -> getenv w "SLACK_BOT_TOKEN" = Some tok).
Proof.
  unfold credential_available, holds_credential, py_or. intros H.
  destruct token as [s|].
  - destruct (pystr.truthy s) eqn:Hs.
    + exists s. repeat split; auto. discriminate.
    + destruct (getenv w "SLACK_BOT_TOKEN") as [s'|]; [|discriminate].
      exists s'. cbn in H. repeat split; auto. discriminate.
  - destruct (getenv w "SLACK_BOT_TOKEN") as [s'|]; [|discriminate].
    exists s'. cbn in H. repeat split; auto. discriminate.
Qed.

(** Past the guard, the call is the logging set-up followed by the
    return of the instance. *)
Lemma construct_with_credential token tok t :
  py_or token (getenv w "SLACK_BOT_TOKEN") = Some tok ->
  pystr.truthy tok = true ->
  construct w token t
  = match fs_mkdir w (log_dir w) with
    | Some e => (Raise e, t)
    | None =>
        match fs_open_log w (log_file w) with
        | Some e => (Raise e, (t ++ [EvMkdir (log_dir w)])%list)
        | None =>
            match logging_level (log_level_name w) with
            | None =>
                (Raise (Exc AttributeError
                          ("module 'logging' has no attribute '"
                           +:+ log_level_name w +:+ "'")),
                 (t ++ [EvMkdir (log_dir w)])%list)
            | Some lvl =>
                (Return (initialized tok (configured_logger w lvl)),
                 (t ++ [EvMkdir (log_dir w); EvAddHandler (log_file w) lvl])%list)
            end
        end
    end.
Proof.
  intros Hor Htok. unfold_call. rewrite Hor, Htok. cbn [negb].
  fold (log_dir w) (log_file w) (log_level_name w).
  destruct (fs_mkdir w (log_dir w)); [reflexivity|].
  destruct (fs_open_log w (log_file w)); [reflexivity|].
  destruct (logging_level (log_level_name w)); cbn; [|reflexivity].
  rewrite <- app_assoc. reflexivity.
Qed.

End Construction.







(** ** Sending *)

Lemma api_calls_app t1 t2 :
  api_calls (t1 ++ t2) = api_calls t1 ++ api_calls t2.
Proof. apply omap_app. Qed.

(** Symbolic execution of a call recorded in hypothesis [H]: the monad is
    unfolded, and every question put to the world splits the proof. *)
Ltac reduce_in H :=
  cbv beta iota zeta delta [trace files negb fst snd] in H; cbn [Path_] in H.

Ltac ask_world H :=
  match type of H with
  | context [match fs_stat ?w ?p with _ => _ end] =>
      destruct (fs_stat w p) eqn:?
  | context [match fs_open ?w ?p with _ => _ end] =>
      destruct (fs_open w p) eqn:?
  | context [match slack_api ?w ?l ?c with _ => _ end] =>
      destruct (slack_api w l c) as [[?|]|?] eqn:?
  | context [if pystr.startswith ?a ?b then _ else _] =>
      destruct (pystr.startswith a b) eqn:?
  | context [if path_arg_truthy ?a then _ else _] =>
      destruct (path_arg_truthy a) eqn:?
  | context [if pystr.contains ?a ?b then _ else _] =>
      destruct (pystr.contains a b) eqn:?
  | context [if is_SlackApiError ?e then _ else _] =>
      destruct (is_SlackApiError e) eqn:?
  | context [if ?a >? ?b then _ else _] =>
      destruct (a >? b) eqn:?
  | context [match ?fp with Some _ => _ | None => _ end] =>
      is_var fp; destruct fp
  end.

Ltac run_in H := unfold_call; repeat (reduce_in H; try ask_world H).

(** Traces and call histories in hypotheses, flattened. *)
Ltac norm_hyps :=
  repeat match goal with
  | H : context [(_ ++ _) ++ _] |- _ =>
      rewrite <- app_assoc in H; cbn [app] in H
  | H : context [api_calls (_ ++ _)] |- _ =>
      rewrite api_calls_app in H; cbn in H
  | H : context [_ ++ []] |- _ => rewrite app_nil_r in H
  end.

(** Two answers to the same question are the same answer. *)
Ltac clash :=
  repeat match goal with
  | H1 : ?l = _, H2 : ?l = _ |- _ => rewrite H1 in H2; simplify_eq
  end.

(** Solves [l = pre ++ x :: post] for a list [l] given by its elements. *)
Ltac split_at H :=
  repeat match type of H with
  | _ :: _ = ?pre ++ _ :: _ =>
      destruct pre as [|? pre]; cbn [app] in H;
      [ try (injection H as H ?; try discriminate)
      | injection H as ? H; subst ]
  | [] = ?pre ++ _ :: _ => destruct pre; discriminate H
  end.

Section Sending.

Variables (w : World) (self : SlackMessenger).
Variables (user_id message : string) (formatting : bool).

(** With the prefix in place nothing escapes: the call returns a
    boolean, whatever the world does. *)
Lemma send_dm_with_prefix_returns file_path t :
  pystr.startswith user_id "U" = true ->
  exists b t', send_dm w self user_id message formatting file_path t
               = (Return b, t').
Proof.
  intros Hprefix.
  destruct (send_dm _ _ _ _ _ _ _) as [o t'] eqn:H.
  run_in H; simplify_eq; eauto.
Qed.

(** The trace only grows. *)
Lemma send_dm_extends_trace file_path t :
  exists ev, snd (send_dm w self user_id message formatting file_path t)
             = t ++ ev.
Proof.
  destruct (send_dm _ _ _ _ _ _ _) as [o t'] eqn:H. cbn [snd].
  run_in H; simplify_eq; rewrite <- ?app_assoc; eauto.
  all: exists []; symmetry; apply app_nil_r.
Qed.

Lemma send_dm_success_with_attachment x t c r2 r3 :
  pystr.startswith user_id "U" = true ->
  path_arg_truthy (Some x) = true ->
  validate_file_call w self x t = (Return true, t) ->
  fs_open w (pathlib.str (Path_ x)) = None ->
  slack_api w (api_calls t) (conversations_open [user_id])
  = ApiOk (RespChannel c) ->
  slack_api w (api_calls t ++ [conversations_open [user_id]])
            (chat_postMessage c message formatting) = ApiOk r2 ->
  slack_api w (api_calls t ++ [conversations_open [user_id];
                               chat_postMessage c message formatting])
            (files_upload c (fresh_handle t) (pathlib.name (Path_ x)))
  = ApiOk r3 ->
  send_dm w self user_id message formatting (Some x) t
  = (Return true,
     t ++ [EvOpen (fresh_handle t) (pathlib.str (Path_ x));
           EvApi (conversations_open [user_id]);
           EvApi (chat_postMessage c message formatting);
           EvApi (files_upload c (fresh_handle t) (pathlib.name (Path_ x)));
           EvLog INFO ("Successfully sent message to " +:+ user_id);
           EvClose (fresh_handle t)]).
Proof.
  intros Hprefix Htruthy Hvalid Hopen Hc1 Hc2 Hc3.
  destruct (send_dm _ _ _ _ _ _ _) as [o t'] eqn:H.
  run_in Hvalid; simplify_eq.
  run_in H; simplify_eq.
  all: norm_hyps; clash.
  all: rewrite <- ?app_assoc; reflexivity.
Qed.

(** Read backwards: a call with an attachment that returns [True] has
    made the three calls, and only them. *)
Lemma send_dm_true_with_attachment x t t' :
  path_arg_truthy (Some x) = true ->
  send_dm w self user_id message formatting (Some x) t = (Return true, t') ->
  exists c,
    api_calls t'
    = api_calls t ++ [conversations_open [user_id];
                      chat_postMessage c message formatting;
                      files_upload c (fresh_handle t) (pathlib.name (Path_ x))].
Proof.
  intros Htruthy H.
  run_in H; simplify_eq.
  all: rewrite !api_calls_app; cbn; rewrite <- ?app_assoc, ?app_nil_r; cbn [app].
  all: eexists; reflexivity.
Qed.

End Sending.

(** C8: a send with a validated attachment in which every step succeeds
    makes exactly three remote calls, in this order: the DM channel is
    opened for the user, the message is posted to that channel with
    [mrkdwn] equal to the [formatting] argument, and the opened file is
    uploaded to the same channel under the path's base name.  The call
    returns [True]. *)
Theorem send_dm_three_calls_in_order (w : World) (self : SlackMessenger)
    (user_id message : string) (formatting : bool) (x : PathArg)
    (t : Trace) (c : string) (r2 r3 : Response) :
  pystr.startswith user_id "U" = true ->
  path_arg_truthy (Some x) = true ->
  validate_file_call w self x t = (Return true, t) ->
  fs_open w (pathlib.str (Path_ x)) = None ->
  slack_api w (api_calls t) (conversations_open [user_id])
  = ApiOk (RespChannel c) ->
  slack_api w (api_calls t ++ [conversations_open [user_id]])
            (chat_postMessage c message formatting) = ApiOk r2 ->
  slack_api w (api_calls t ++ [conversations_open [user_id];
                               chat_postMessage c message formatting])
            (files_upload c (fresh_handle t) (pathlib.name (Path_ x)))
  = ApiOk r3 ->
  exists t',
    send_dm w self user_id message formatting (Some x) t = (Return true, t')
    /\ api_calls t'
       = api_calls t ++ [conversations_open [user_id];
                         chat_postMessage c message formatting;
                         files_upload c (fresh_handle t)
                                      (pathlib.name (Path_ x))]
    /\ t' = t ++ [EvOpen (fresh_handle t) (pathlib.str (Path_ x));
                  EvApi (conversations_open [user_id]);
                  EvApi (chat_postMessage c message formatting);
                  EvApi (files_upload c (fresh_handle t)
                                      (pathlib.name (Path_ x)));
                  EvLog INFO ("Successfully sent message to " +:+ user_id);
                  EvClose (fresh_handle t)].
Proof.
  intros Hprefix Htruthy Hvalid Hopen Hc1 Hc2 Hc3.
  eexists. split; [|split; [|reflexivity]].
  - apply (send_dm_success_with_attachment w self user_id message formatting
             x t c r2 r3); assumption.
  - rewrite api_calls_app. reflexivity.
Qed.

Lemma send_dm_three_calls_in_order_witness :
  exists t',
    send_dm Fixtures.w_ok Fixtures.messenger "U1234567" "See attached" true
            (Some (PStr "docs//q3/./report.pdf")) []
    = (Return true, t')
    /\ api_calls t'
       = [conversations_open ["U1234567"];
          chat_postMessage "D0001" "See attached" true;
          files_upload "D0001" 0%nat "report.pdf"]
    /\ t' = [EvOpen 0%nat "docs/q3/report.pdf";
             EvApi (conversations_open ["U1234567"]);
             EvApi (chat_postMessage "D0001" "See attached" true);
             EvApi (files_upload "D0001" 0%nat "report.pdf");
             EvLog INFO "Successfully sent message to U1234567";
             EvClose 0%nat].
Proof.
  apply (send_dm_three_calls_in_order Fixtures.w_ok Fixtures.messenger
           "U1234567" "See attached" true (PStr "docs//q3/./report.pdf") []
           "D0001" RespOther RespOther);
    reflexivity.
Defined.

(** C4: whenever the [chat_postMessage] call of a send is answered by a
    [SlackApiError], the send returns [False], the error's text is logged
    with "Failed to send message", and no [files_upload] call is made
    before or after, attachment or not. *)
Theorem post_failure_stops_send (w : World) (self : SlackMessenger)
    (user_id message : string) (formatting : bool)
    (file_path : option PathArg) (t t' : Trace) (o : Outcome bool)
    (pre post : list Event) (c m : string) (f : bool) (detail : string) :
  send_dm w self user_id message formatting file_path t = (o, t') ->
  t' = t ++ pre ++ EvApi (chat_postMessage c m f) :: post ->
  slack_api w (api_calls (t ++ pre)) (chat_postMessage c m f)
  = ApiRaise (Exc SlackApiError detail) ->
  o = Return false
  /\ In (EvLog ERROR ("Failed to send message: " +:+ detail)) post
  /\ forall ch h title, ~ In (EvApi (files_upload ch h title)) (pre ++ post).
Proof.
  intros H Ht' Hraise.
  run_in H.
  all: injection H as <- <-.
  all: rewrite <- ?app_assoc in Ht'; cbn [app] in Ht'.
  all: try apply app_inv_head in Ht'.
  all: try (rewrite <- (app_nil_r t) in Ht' at 1; apply app_inv_head in Ht').
  all: split_at Ht'.
  all: subst; norm_hyps; clash.
  all: try discriminate.
  all: split; [reflexivity|].
  all: split; [cbn; auto|].
  all: intros ? ? ? Hin; cbn in Hin; intuition discriminate.
Qed.

Lemma post_failure_stops_send_witness :
  send_dm Fixtures.w_post_fails Fixtures.messenger "U1234567" "See attached"
          false (Some (PStr "report.pdf")) []
  = (Return false,
     [EvOpen 0%nat "report.pdf";
      EvApi (conversations_open ["U1234567"]);
      EvApi (chat_postMessage "D0001" "See attached" false);
      EvLog ERROR "Failed to send message: channel_not_found";
      EvClose 0%nat])
  /\ Return false = Return false
  /\ In (EvLog ERROR "Failed to send message: channel_not_found")
        [EvLog ERROR "Failed to send message: channel_not_found"; EvClose 0%nat]
  /\ forall ch h title,
       ~ In (EvApi (files_upload ch h title))
            ([EvOpen 0%nat "report.pdf"; EvApi (conversations_open ["U1234567"])]
             ++ [EvLog ERROR "Failed to send message: channel_not_found";
                 EvClose 0%nat]).
Proof.
  split; [reflexivity|].
  apply (post_failure_stops_send Fixtures.w_post_fails Fixtures.messenger
           "U1234567" "See attached" false (Some (PStr "report.pdf")) []
           [EvOpen 0%nat "report.pdf";
            EvApi (conversations_open ["U1234567"]);
            EvApi (chat_postMessage "D0001" "See attached" false);
            EvLog ERROR "Failed to send message: channel_not_found";
            EvClose 0%nat]
           (Return false)
           [EvOpen 0%nat "report.pdf"; EvApi (conversations_open ["U1234567"])]
           [EvLog ERROR "Failed to send message: channel_not_found"; EvClose 0%nat]
           "D0001" "See attached" false "channel_not_found");
    reflexivity.
Defined.

(** C9: whatever the arguments, the world and the way the call ends, the
    events of a [send_dm] call leave no handle open: a handle the call
    opens is closed by the call, and closing it is the last thing the
    call does. *)
Theorem send_dm_closes_its_handle (w : World) (self : SlackMessenger)
    (user_id message : string) (formatting : bool)
    (file_path : option PathArg) (t t' : Trace) (o : Outcome bool) :
  send_dm w self user_id message formatting file_path t = (o, t') ->
  exists ev,
    t' = t ++ ev
    /\ open_handles ev = []
    /\ forall h p, In (EvOpen h p) ev -> last ev = Some (EvClose h).
Proof.
  intros H.
  run_in H.
  all: injection H as <- <-.
  all: rewrite <- ?app_assoc; cbn [app].
  all: try (exists []; rewrite app_nil_r; repeat split; intros ? ? []).
  all: eexists; split; [reflexivity|].
  all: split; [cbn; rewrite ?Nat.eqb_refl; reflexivity|].
  all: intros ? ? Hin; cbn in Hin.
  all: repeat (destruct Hin as [Hin|Hin]; try discriminate); try contradiction.
  all: injection Hin as <- <-; reflexivity.
Qed.

Lemma send_dm_closes_its_handle_witness :
  exists ev,
    [EvOpen 0%nat "report.pdf";
     EvApi (conversations_open ["U1234567"]);
     EvLog ERROR "Unexpected error: 'channel'";
     EvClose 0%nat] = [] ++ ev
    /\ open_handles ev = []
    /\ forall h p, In (EvOpen h p) ev -> last ev = Some (EvClose h).
Proof.
  apply (send_dm_closes_its_handle Fixtures.w_malformed Fixtures.messenger
           "U1234567" "See attached" false (Some (PStr "report.pdf")) []
           [EvOpen 0%nat "report.pdf";
            EvApi (conversations_open ["U1234567"]);
            EvLog ERROR "Unexpected error: 'channel'";
            EvClose 0%nat]
           (Return false)).
  reflexivity.
Defined.

(** The three ways out of a send that has opened a file. *)
Example exit_success :
  send_dm Fixtures.w_ok Fixtures.messenger "U1234567" "See attached" false
          (Some (PStr "report.pdf")) []
  = (Return true,
     [EvOpen 0%nat "report.pdf";
      EvApi (conversations_open ["U1234567"]);
      EvApi (chat_postMessage "D0001" "See attached" false);
      EvApi (files_upload "D0001" 0%nat "report.pdf");
      EvLog INFO "Successfully sent message to U1234567";
      EvClose 0%nat]).
Proof. reflexivity. Qed.

Example exit_remote_failure :
  send_dm Fixtures.w_post_fails Fixtures.messenger "U1234567" "See attached"
          false (Some (PStr "report.pdf")) []
  = (Return false,
     [EvOpen 0%nat "report.pdf";
      EvApi (conversations_open ["U1234567"]);
      EvApi (chat_postMessage "D0001" "See attached" false);
      EvLog ERROR "Failed to send message: channel_not_found";
      EvClose 0%nat]).
Proof. reflexivity. Qed.

Example exit_unexpected_error :
  send_dm Fixtures.w_malformed Fixtures.messenger "U1234567" "See attached"
          false (Some (PStr "report.pdf")) []
  = (Return false,
     [EvOpen 0%nat "report.pdf";
      EvApi (conversations_open ["U1234567"]);
      EvLog ERROR "Unexpected error: 'channel'";
      EvClose 0%nat]).
Proof. reflexivity. Qed.

(** * Further properties of the code *)

(** ** [send_dm] *)

(** X1: a call whose user id starts with ['U'] never raises: it returns a
    boolean, whatever the file system and the service do. *)
Theorem send_dm_never_raises_with_prefix (w : World) (self : SlackMessenger)
    (user_id message : string) (formatting : bool)
    (file_path : option PathArg) (t : Trace) :
  pystr.startswith user_id "U" = true ->
  exists b ev,
    send_dm w self user_id message formatting file_path t = (Return b, t ++ ev).
Proof.
  intros Hprefix.
  destruct (send_dm _ _ _ _ _ _ _) as [o t'] eqn:H.
  run_in H; simplify_eq; rewrite <- ?app_assoc; eauto.
  all: eexists _, []; rewrite app_nil_r; reflexivity.
Qed.

Lemma send_dm_never_raises_with_prefix_witness :
  exists b ev,
    send_dm Fixtures.w_malformed Fixtures.messenger "U1234567" "Hello!" false
            (Some (PStr "report.pdf")) [] = (Return b, [] ++ ev).
Proof.
  apply (send_dm_never_raises_with_prefix Fixtures.w_malformed
           Fixtures.messenger "U1234567" "Hello!" false
           (Some (PStr "report.pdf")) []).
  reflexivity.
Defined.

(** X2: every call logs exactly one record: the INFO record of a
    delivered message when it returns [True], an ERROR record in every
    other case. *)
Theorem send_dm_one_log_record (w : World) (self : SlackMessenger)
    (user_id message : string) (formatting : bool)
    (file_path : option PathArg) (t t' : Trace) (o : Outcome bool) :
  send_dm w self user_id message formatting file_path t = (o, t') ->
  exists ev lvl msg,
    t' = t ++ ev
    /\ log_records ev = [(lvl, msg)]
    /\ (o = Return true ->
        lvl = INFO /\ msg = "Successfully sent message to " +:+ user_id)
    /\ (o <> Return true -> lvl = ERROR).
Proof.
  intros H.
  run_in H.
  all: injection H as <- <-.
  all: rewrite <- ?app_assoc; cbn [app].
  all: eexists _, _, _; split; [reflexivity|].
  all: split; [reflexivity|].
  all: split; [intros Ho; try discriminate Ho; auto | intros Ho; try reflexivity; congruence].
Qed.

Lemma send_dm_one_log_record_witness :
  exists ev lvl msg,
    [EvLog ERROR "File not found: nowhere.pdf"] = [] ++ ev
    /\ log_records ev = [(lvl, msg)]
    /\ (Return false = Return true ->
        lvl = INFO /\ msg = "Successfully sent message to " +:+ "U1234567")
    /\ (Return false <> Return true -> lvl = ERROR).
Proof.
  apply (send_dm_one_log_record Fixtures.w_ok Fixtures.messenger "U1234567"
           "Hello!" false (Some (PStr "nowhere.pdf")) []
           [EvLog ERROR "File not found: nowhere.pdf"] (Return false)).
  reflexivity.
Defined.



(** X4: a remote call that raises is the last remote call of the send.
    The send returns [False], and the exception's text is logged after
    "Failed to send message: " when it is a [SlackApiError] and after
    "Unexpected error: " when it is anything else. *)
Theorem raising_call_ends_send (w : World) (self : SlackMessenger)
    (user_id message : string) (formatting : bool)
    (file_path : option PathArg) (t t' : Trace) (o : Outcome bool)
    (pre post : list Event) (call : ApiCall) (e : exn) :
  send_dm w self user_id message formatting file_path t = (o, t') ->
  t' = t ++ pre ++ EvApi call :: post ->
  slack_api w (api_calls (t ++ pre)) call = ApiRaise e ->
  o = Return false
  /\ api_calls post = []
  /\ In (EvLog ERROR ((if is_SlackApiError e
                       then "Failed to send message: "
                       else "Unexpected error: ") +:+ str_exn e)) post.
Proof.
  intros H Ht' Hraise.
  run_in H.
  all: injection H as <- <-.
  all: rewrite <- ?app_assoc in Ht'; cbn [app] in Ht'.
  all: try apply app_inv_head in Ht'.
  all: try (rewrite <- (app_nil_r t) in Ht' at 1; apply app_inv_head in Ht').
  all: split_at Ht'.
  all: subst; norm_hyps; clash.
  all: try discriminate.
  all: split; [reflexivity|].
  all: split; [reflexivity|].
  all: match goal with
       | H : is_SlackApiError _ = _ |- _ => rewrite H
       end.
  all: cbn; auto.
Qed.

Lemma raising_call_ends_send_witness :
  Return false = Return false
  /\ api_calls [EvLog ERROR "Failed to send message: channel_not_found";
                EvClose 0%nat] = []
  /\ In (EvLog ERROR ((if is_SlackApiError (Exc SlackApiError "channel_not_found")
                       then "Failed to send message: "
                       else "Unexpected error: ")
                      +:+ str_exn (Exc SlackApiError "channel_not_found")))
        [EvLog ERROR "Failed to send message: channel_not_found"; EvClose 0%nat].
Proof.
  apply (raising_call_ends_send Fixtures.w_post_fails Fixtures.messenger
           "U1234567" "See attached" false (Some (PStr "report.pdf")) []
           [EvOpen 0%nat "report.pdf";
            EvApi (conversations_open ["U1234567"]);
            EvApi (chat_postMessage "D0001" "See attached" false);
            EvLog ERROR "Failed to send message: channel_not_found";
            EvClose 0%nat]
           (Return false)
           [EvOpen 0%nat "report.pdf"; EvApi (conversations_open ["U1234567"])]
           [EvLog ERROR "Failed to send message: channel_not_found"; EvClose 0%nat]
           (chat_postMessage "D0001" "See attached" false)
           (Exc SlackApiError "channel_not_found"));
    reflexivity.
Defined.



(** X6: without an attachment a send whose two calls go through makes
    exactly those two calls, logs the INFO record and returns [True]; no
    file is opened or closed. *)
Theorem send_dm_plain_message (w : World) (self : SlackMessenger)
    (user_id message : string) (formatting : bool)
    (file_path : option PathArg) (t : Trace) (c : string) (r : Response) :
  pystr.startswith user_id "U" = true ->
  path_arg_truthy file_path = false ->
  slack_api w (api_calls t) (conversations_open [user_id])
  = ApiOk (RespChannel c) ->
  slack_api w (api_calls t ++ [conversations_open [user_id]])
            (chat_postMessage c message formatting) = ApiOk r ->
  send_dm w self user_id message formatting file_path t
  = (Return true,
     t ++ [EvApi (conversations_open [user_id]);
           EvApi (chat_postMessage c message formatting);
           EvLog INFO ("Successfully sent message to " +:+ user_id)]).
Proof.
  intros Hprefix Hfalsy Hc1 Hc2.
  destruct (send_dm _ _ _ _ _ _ _) as [o t'] eqn:H.
  run_in H; simplify_eq.
  all: norm_hyps; clash.
  all: rewrite <- ?app_assoc; reflexivity.
Qed.

Lemma send_dm_plain_message_witness :
  send_dm Fixtures.w_ok Fixtures.messenger "U1234567" "*Bold*" true None []
  = (Return true,
     [] ++ [EvApi (conversations_open ["U1234567"]);
            EvApi (chat_postMessage "D0001" "*Bold*" true);
            EvLog INFO ("Successfully sent message to " +:+ "U1234567")]).
Proof.
  apply (send_dm_plain_message Fixtures.w_ok Fixtures.messenger "U1234567"
           "*Bold*" true None [] "D0001" RespOther);
    reflexivity.
Defined.

(** X7: an empty string as [file_path] is the same as no [file_path]:
    nothing is validated or opened, and the send goes on as a plain
    message. *)
Theorem empty_file_path_is_no_attachment (w : World) (self : SlackMessenger)
    (user_id message : string) (formatting : bool) (t : Trace) :
  send_dm w self user_id message formatting (Some (PStr "")) t
  = send_dm w self user_id message formatting None t.
Proof.
  destruct (send_dm w self user_id message formatting None t) as [o t'] eqn:H.
  destruct (send_dm w self user_id message formatting (Some (PStr "")) t)
    as [o2 t2] eqn:H2.
  run_in H; simplify_eq.
  all: run_in H2; simplify_eq.
  all: norm_hyps; clash.
  all: reflexivity.
Qed.

(** X8: an error of [stat] other than a missing path is not a verdict:
    [_validate_file] lets it escape, logging nothing; [send_dm] catches
    it, logs it as unexpected, makes no remote call and returns
    [False]. *)
Theorem stat_error_escapes_validation (w : World) (self : SlackMessenger)
    (user_id message : string) (formatting : bool) (x : PathArg)
    (t : Trace) (e : exn) :
  pystr.startswith user_id "U" = true ->
  path_arg_truthy (Some x) = true ->
  fs_stat w (pathlib.str (Path_ x)) = StatError e ->
  validate_file_call w self x t = (Raise e, t)
  /\ send_dm w self user_id message formatting (Some x) t
     = (Return false, t ++ [EvLog ERROR ("Unexpected error: " +:+ str_exn e)]).
Proof.
  intros Hprefix Htruthy Hstat. split.
  - unfold_call. rewrite Hstat. reflexivity.
  - unfold_call. rewrite Hprefix, Htruthy. cbn [negb Path_].
    rewrite Hstat. reflexivity.
Qed.

(** X9: when the validated file cannot be opened, the send stops
    there: the error is logged as unexpected, no remote call is made,
    no handle exists to be closed, and the call returns [False]. *)
Theorem open_error_stops_send (w : World) (self : SlackMessenger)
    (user_id message : string) (formatting : bool) (x : PathArg)
    (t : Trace) (e : exn) :
  pystr.startswith user_id "U" = true ->
  path_arg_truthy (Some x) = true ->
  validate_file_call w self x t = (Return true, t) ->
  fs_open w (pathlib.str (Path_ x)) = Some e ->
  send_dm w self user_id message formatting (Some x) t
  = (Return false, t ++ [EvLog ERROR ("Unexpected error: " +:+ str_exn e)]).
Proof.
  intros Hprefix Htruthy Hvalid Hopen.
  destruct (send_dm _ _ _ _ _ _ _) as [o t'] eqn:H.
  run_in Hvalid; simplify_eq.
  run_in H; simplify_eq.
  all: clash.
  all: reflexivity.
Qed.

(** X10: a failed upload comes after the message: when [files_upload]
    raises a [SlackApiError], the send returns [False] although the
    message has been posted, and the file is closed. *)
Theorem upload_failure_follows_delivery (w : World) (self : SlackMessenger)
    (user_id message : string) (formatting : bool) (x : PathArg)
    (t : Trace) (c : string) (r : Response) (detail : string) :
  pystr.startswith user_id "U" = true ->
  path_arg_truthy (Some x) = true ->
  validate_file_call w self x t = (Return true, t) ->
  fs_open w (pathlib.str (Path_ x)) = None ->
  slack_api w (api_calls t) (conversations_open [user_id])
  = ApiOk (RespChannel c) ->
  slack_api w (api_calls t ++ [conversations_open [user_id]])
            (chat_postMessage c message formatting) = ApiOk r ->
  slack_api w (api_calls t ++ [conversations_open [user_id];
                               chat_postMessage c message formatting])
            (files_upload c (fresh_handle t) (pathlib.name (Path_ x)))
  = ApiRaise (Exc SlackApiError detail) ->
  send_dm w self user_id message formatting (Some x) t
  = (Return false,
     t ++ [EvOpen (fresh_handle t) (pathlib.str (Path_ x));
           EvApi (conversations_open [user_id]);
           EvApi (chat_postMessage c message formatting);
           EvApi (files_upload c (fresh_handle t) (pathlib.name (Path_ x)));
           EvLog ERROR ("Failed to send message: " +:+ detail);
           EvClose (fresh_handle t)]).
Proof.
  intros Hprefix Htruthy Hvalid Hopen Hc1 Hc2 Hc3.
  destruct (send_dm _ _ _ _ _ _ _) as [o t'] eqn:H.
  run_in Hvalid; simplify_eq.
  run_in H; simplify_eq.
  all: norm_hyps; clash.
  all: try discriminate.
  all: rewrite <- ?app_assoc; reflexivity.
Qed.

(** X11: an answer to the channel opening that carries no channel id
    ends the send: nothing is posted, an ERROR record is logged as
    unexpected and the call returns [False]. *)
Theorem missing_channel_id_stops_send (w : World) (self : SlackMessenger)
    (user_id message : string) (formatting : bool)
    (file_path : option PathArg) (t t' : Trace) (o : Outcome bool)
    (pre post : list Event) (users : list string) :
  send_dm w self user_id message formatting file_path t = (o, t') ->
  t' = t ++ pre ++ EvApi (conversations_open users) :: post ->
  slack_api w (api_calls (t ++ pre)) (conversations_open users)
  = ApiOk RespOther ->
  o = Return false
  /\ api_calls post = []
  /\ exists msg, In (EvLog ERROR ("Unexpected error: " +:+ msg)) post.
Proof.
  intros H Ht' Hanswer.
  run_in H.
  all: injection H as <- <-.
  all: rewrite <- ?app_assoc in Ht'; cbn [app] in Ht'.
  all: try apply app_inv_head in Ht'.
  all: try (rewrite <- (app_nil_r t) in Ht' at 1; apply app_inv_head in Ht').
  all: split_at Ht'.
  all: subst; norm_hyps; clash.
  all: try discriminate.
  all: split; [reflexivity|].
  all: split; [reflexivity|].
  all: eexists; cbn; auto.
Qed.

Lemma stat_error_escapes_validation_witness :
  validate_file_call Faults.w_faulty Fixtures.messenger
                     (PStr "vault/report.pdf") []
  = (Raise (Faults.permission_denied "vault/report.pdf"), [])
  /\ send_dm Faults.w_faulty Fixtures.messenger "U1234567" "See attached"
             false (Some (PStr "vault/report.pdf")) []
     = (Return false,
        [] ++ [EvLog ERROR ("Unexpected error: "
                            +:+ str_exn (Faults.permission_denied
                                           "vault/report.pdf"))]).
Proof.
  apply (stat_error_escapes_validation Faults.w_faulty Fixtures.messenger
           "U1234567" "See attached" false (PStr "vault/report.pdf") []
           (Faults.permission_denied "vault/report.pdf"));
    reflexivity.
Defined.

Lemma open_error_stops_send_witness :
  send_dm Faults.w_faulty Fixtures.messenger "U1234567" "See attached" false
          (Some (PStr "SCAN.PDF")) []
  = (Return false,
     [] ++ [EvLog ERROR ("Unexpected error: "
                         +:+ str_exn (Faults.permission_denied "SCAN.PDF"))]).
Proof.
  apply (open_error_stops_send Faults.w_faulty Fixtures.messenger "U1234567"
           "See attached" false (PStr "SCAN.PDF") []
           (Faults.permission_denied "SCAN.PDF"));
    reflexivity.
Defined.

Lemma upload_failure_follows_delivery_witness :
  send_dm Faults.w_faulty Fixtures.messenger "U1234567" "See attached" false
          (Some (PStr "report.pdf")) []
  = (Return false,
     [] ++ [EvOpen (fresh_handle []) (pathlib.str (Path_ (PStr "report.pdf")));
            EvApi (conversations_open ["U1234567"]);
            EvApi (chat_postMessage "D0001" "See attached" false);
            EvApi (files_upload "D0001" (fresh_handle [])
                                (pathlib.name (Path_ (PStr "report.pdf"))));
            EvLog ERROR ("Failed to send message: " +:+ "file_too_large");
            EvClose (fresh_handle [])]).
Proof.
  apply (upload_failure_follows_delivery Faults.w_faulty Fixtures.messenger
           "U1234567" "See attached" false (PStr "report.pdf") [] "D0001"
           RespOther "file_too_large");
    reflexivity.
Defined.

Lemma missing_channel_id_stops_send_witness :
  Return false = Return false
  /\ api_calls [EvLog ERROR "Unexpected error: 'channel'"] = []
  /\ exists msg,
       In (EvLog ERROR ("Unexpected error: " +:+ msg))
          [EvLog ERROR "Unexpected error: 'channel'"].
Proof.
  apply (missing_channel_id_stops_send Fixtures.w_malformed Fixtures.messenger
           "U1234567" "Hello!" false None []
           [EvApi (conversations_open ["U1234567"]);
            EvLog ERROR "Unexpected error: 'channel'"]
           (Return false) []
           [EvLog ERROR "Unexpected error: 'channel'"] ["U1234567"]);
    reflexivity.
Defined.

(** ** [_validate_file] *)

(** X12: under any configuration the check touches nothing but the log:
    acceptance is silent, a rejection logs exactly one ERROR record, and
    the only exception it can raise is a failure of [stat], which it
    does not log. *)
Theorem validate_file_only_logs (w : World) (self : SlackMessenger)
    (x : PathArg) (t t' : Trace) (o : Outcome bool) :
  validate_file_call w self x t = (o, t') ->
  (o = Return true /\ t' = t)
  \/ (o = Return false /\ exists msg, t' = t ++ [EvLog ERROR msg])
  \/ (exists e,
        o = Raise e /\ t' = t
        /\ fs_stat w (pathlib.str (Path_ x)) = StatError e).
Proof.
  intros H.
  run_in H; simplify_eq; eauto 7.
Qed.

Lemma validate_file_only_logs_witness :
  (Return false = Return true
   /\ [EvLog ERROR "File type .exe not allowed"] = [])
  \/ (Return false = Return false
      /\ exists msg, [EvLog ERROR "File type .exe not allowed"]
                     = [] ++ [EvLog ERROR msg])
  \/ (exists e,
        Return false = Raise e
        /\ [EvLog ERROR "File type .exe not allowed"] = []
        /\ fs_stat Fixtures.w_ok (pathlib.str (Path_ (PStr "setup.exe")))
           = StatError e).
Proof.
  apply (validate_file_only_logs Fixtures.w_ok Fixtures.messenger
           (PStr "setup.exe") []
           [EvLog ERROR "File type .exe not allowed"] (Return false)).
  reflexivity.
Defined.

Section AllowListCase.

Lemma lower_char_not_upper c : pystr.is_upper (pystr.lower_char c) = false.
Proof.
  unfold pystr.lower_char. destruct (pystr.is_upper c) eqn:Hc; [|exact Hc].
  unfold pystr.is_upper in *.
  apply andb_true_iff in Hc as [Hlo Hhi].
  apply Nat.leb_le in Hlo, Hhi.
  rewrite nat_ascii_embedding by lia.
  apply andb_false_iff. right. apply Nat.leb_gt. lia.
Qed.

Lemma lower_no_upper s : no_upper (pystr.lower s) = true.
Proof.
  induction s as [|c s IH]; cbn; [reflexivity|].
  rewrite lower_char_not_upper, IH. reflexivity.
Qed.

Lemma contains_lower_skips_upper (l : list string) s :
  pystr.contains l (pystr.lower s)
  = pystr.contains (List.filter no_upper l) (pystr.lower s).
Proof.
  unfold pystr.contains. induction l as [|e l IH]; cbn; [reflexivity|].
  destruct (no_upper e) eqn:He; cbn; rewrite IH; [reflexivity|].
  destruct (String.eqb_spec (pystr.lower s) e) as [<-|_]; [|reflexivity].
  rewrite lower_no_upper in He. discriminate.
Qed.

End AllowListCase.

(** X13: the suffix is lower-cased before it is looked up, the
    allow-list is not: an entry of [allowed_file_types] that contains an
    upper-case letter never matches, and the check behaves as if the
    entry were not there. *)
Theorem upper_case_entries_are_dead (w : World) (self : SlackMessenger)
    (l : list string) (x : PathArg) (t : Trace) :
  validate_file_call w (set_allowed_file_types self l) x t
  = validate_file_call w
      (set_allowed_file_types self (List.filter no_upper l)) x t.
Proof.
  unfold_call. cbn [config set_allowed_file_types max_file_size allowed_file_types].
  rewrite <- contains_lower_skips_upper. reflexivity.
Qed.

Example upper_case_entry_rejects_pdf :
  validate_file_call Fixtures.w_ok
    (set_allowed_file_types Fixtures.messenger [".PDF"]) (PStr "SCAN.PDF") []
  = (Return false, [EvLog ERROR "File type .PDF not allowed"]).
Proof. reflexivity. Qed.

(** ** Construction and logging set-up *)

Section Environment.

Variable w : World.

Lemma getenv_setenv_eq k v : getenv (setenv w k v) k = Some v.
Proof. unfold getenv, setenv. cbn. apply lookup_insert_eq. Qed.

Lemma getenv_setenv_ne k k' v :
  k <> k' -> getenv (setenv w k v) k' = getenv w k'.
Proof. intros Hne. unfold getenv, setenv. cbn. apply lookup_insert_ne, Hne. Qed.

(** What [construct] returns, read off the outcome. *)
Lemma construct_cases token t o t' :
  construct w token t = (o, t') ->
  (o = Raise missing_token_error /\ t' = t
   /\ credential_available w token = false)
  \/ (exists tok,
        py_or token (getenv w "SLACK_BOT_TOKEN") = Some tok
        /\ pystr.truthy tok = true
        /\ ((exists e, fs_mkdir w (log_dir w) = Some e
                       /\ o = Raise e /\ t' = t)
            \/ (exists e, fs_mkdir w (log_dir w) = None
                          /\ fs_open_log w (log_file w) = Some e
                          /\ o = Raise e /\ t' = t ++ [EvMkdir (log_dir w)])
            \/ (exists e, fs_mkdir w (log_dir w) = None
                          /\ fs_open_log w (log_file w) = None
                          /\ logging_level (log_level_name w) = None
                          /\ o = Raise e /\ t' = t ++ [EvMkdir (log_dir w)])
            \/ (exists lvl, fs_mkdir w (log_dir w) = None
                            /\ fs_open_log w (log_file w) = None
                            /\ logging_level (log_level_name w) = Some lvl
                            /\ o = Return (initialized tok (configured_logger w lvl))
                            /\ t' = t ++ [EvMkdir (log_dir w);
                                          EvAddHandler (log_file w) lvl]))).
Proof.
  intros H.
  destruct (credential_available w token) eqn:Havail.
  - right.
    destruct (credential_chosen w token Havail) as (tok & Hor & Htok & _).
    exists tok. split; [exact Hor|]. split; [exact Htok|].
    rewrite (construct_with_credential w token tok t Hor Htok) in H.
    destruct (fs_mkdir w (log_dir w)) as [e|];
      [left; simplify_eq; eauto|right].
    destruct (fs_open_log w (log_file w)) as [e|];
      [left; simplify_eq; eauto 6|right].
    destruct (logging_level (log_level_name w)) as [lvl|];
      [right|left]; simplify_eq; eauto 8.
  - left. rewrite construct_without_credential in H by assumption.
    simplify_eq. auto.
Qed.

End Environment.



(** X15: a non-empty explicit token makes [SLACK_BOT_TOKEN] irrelevant:
    whatever the variable is set to, construction does the same and
    returns the same instance. *)
Theorem explicit_token_wins (w : World) (s v : string) (t : Trace) :
  pystr.truthy s = true ->
  construct (setenv w "SLACK_BOT_TOKEN" v) (Some s) t = construct w (Some s) t.
Proof.
  intros Hs.
  assert (Hor : forall w', py_or (Some s) (getenv w' "SLACK_BOT_TOKEN") = Some s)
    by (intros w'; cbn; rewrite Hs; reflexivity).
  rewrite !(construct_with_credential _ _ s t (Hor _) Hs).
  unfold configured_logger, log_dir, log_file, log_level_name, getenv_default.
  rewrite !getenv_setenv_ne by discriminate.
  reflexivity.
Qed.

Lemma explicit_token_wins_witness :
  construct (setenv Fixtures.w_no_token "SLACK_BOT_TOKEN" "xoxb-other")
            (Some "xoxb-explicit") []
  = construct Fixtures.w_no_token (Some "xoxb-explicit") [].
Proof.
  apply (explicit_token_wins Fixtures.w_no_token "xoxb-explicit" "xoxb-other" []).
  reflexivity.
Defined.

(** X16: handlers pile up on the shared logger: a construction that
    returns an instance adds exactly one handler to those already
    there, a construction that raises adds none. *)
Theorem construct_adds_one_handler (w : World) (token : option string)
    (t t' : Trace) (o : Outcome SlackMessenger) :
  construct w token t = (o, t') ->
  handler_count t'
  = (handler_count t + match o with Return _ => 1 | Raise _ => 0 end)%nat.
Proof.
  intros H.
  destruct (construct_cases w token t _ _ H)
    as [(-> & -> & _)|(tok & _ & _ & Hcase)]; [lia|].
  destruct Hcase as [(e & _ & -> & ->)|[(e & _ & _ & -> & ->)
                    |[(e & _ & _ & _ & -> & ->)|(lvl & _ & _ & _ & -> & ->)]]];
    unfold handler_count; rewrite ?List.filter_app, ?length_app; cbn; lia.
Qed.

Lemma construct_adds_one_handler_witness :
  handler_count [EvMkdir "logs"; EvAddHandler "logs/slack_messenger.log" 20;
                 EvMkdir "logs"; EvAddHandler "logs/slack_messenger.log" 20]
  = (handler_count [EvMkdir "logs"; EvAddHandler "logs/slack_messenger.log" 20]
     + 1)%nat.
Proof.
  apply (construct_adds_one_handler Fixtures.w_ok None
           [EvMkdir "logs"; EvAddHandler "logs/slack_messenger.log" 20]
           [EvMkdir "logs"; EvAddHandler "logs/slack_messenger.log" 20;
            EvMkdir "logs"; EvAddHandler "logs/slack_messenger.log" 20]
           (Return Fixtures.messenger)).
  reflexivity.
Defined.



Section LevelCase.

Lemma same_letter_upper a b :
  same_letter a b = true -> pystr.upper_char a = pystr.upper_char b.
Proof.
  assert (Hup : forall c d,
             pystr.is_upper c = true ->
             pystr.lower_char c = d ->
             pystr.upper_char c = pystr.upper_char d).
  { intros c d Hc <-. unfold pystr.lower_char, pystr.upper_char.
    rewrite Hc. unfold pystr.is_upper, pystr.is_lower in *.
    apply andb_true_iff in Hc as [Hlo Hhi]. apply Nat.leb_le in Hlo, Hhi.
    rewrite nat_ascii_embedding by lia.
    replace ((97 <=? nat_of_ascii c)%nat) with false
      by (symmetry; apply Nat.leb_gt; lia).
    replace ((97 <=? nat_of_ascii c + 32)%nat) with true
      by (symmetry; apply Nat.leb_le; lia).
    replace ((nat_of_ascii c + 32 <=? 122)%nat) with true
      by (symmetry; apply Nat.leb_le; lia).
    cbn [andb].
    replace (nat_of_ascii c + 32 - 32)%nat with (nat_of_ascii c) by lia.
    symmetry. apply ascii_nat_embedding. }
  unfold same_letter. intros H.
  apply orb_true_iff in H as [H|H]; [apply orb_true_iff in H as [H|H]|].
  - apply Ascii.eqb_eq in H. congruence.
  - apply andb_true_iff in H as [Ha H]. apply Ascii.eqb_eq in H. auto.
  - apply andb_true_iff in H as [Hb H]. apply Ascii.eqb_eq in H.
    symmetry. auto.
Qed.

Lemma eq_ignore_case_upper s1 s2 :
  eq_ignore_case s1 s2 = true -> pystr.upper s1 = pystr.upper s2.
Proof.
  revert s2. induction s1 as [|a s1 IH]; intros [|b s2] H; cbn in *;
    try discriminate; [reflexivity|].
  apply andb_true_iff in H as [Hab H].
  rewrite (same_letter_upper a b Hab), (IH s2 H). reflexivity.
Qed.

End LevelCase.

(** X18: the level name is upper-cased before it is looked up: two
    settings of [SLACK_LOG_LEVEL] that differ only in the case of their
    letters construct the same instance, or fail the same way. *)
Theorem log_level_ignores_case (w : World) (l1 l2 : string)
    (token : option string) (t : Trace) :
  eq_ignore_case l1 l2 = true ->
  construct (setenv w "SLACK_LOG_LEVEL" l1) token t
  = construct (setenv w "SLACK_LOG_LEVEL" l2) token t.
Proof.
  intros Hcase. apply eq_ignore_case_upper in Hcase.
  set (w1 := setenv w "SLACK_LOG_LEVEL" l1).
  set (w2 := setenv w "SLACK_LOG_LEVEL" l2).
  assert (Htok : getenv w1 "SLACK_BOT_TOKEN" = getenv w2 "SLACK_BOT_TOKEN")
    by (unfold w1, w2; rewrite !getenv_setenv_ne by discriminate; reflexivity).
  assert (Hdir : log_dir w1 = log_dir w2 /\ log_file w1 = log_file w2).
  { unfold log_dir, log_file, getenv_default, w1, w2.
    rewrite !getenv_setenv_ne by discriminate. split; reflexivity. }
  assert (Hlvl : log_level_name w1 = log_level_name w2).
  { unfold log_level_name, getenv_default, w1, w2.
    rewrite !getenv_setenv_eq. exact Hcase. }
  destruct Hdir as [Hdir Hfile].
  destruct (credential_available w1 token) eqn:Havail.
  - assert (Havail2 : credential_available w2 token = true)
      by (unfold credential_available in *; rewrite <- Htok; exact Havail).
    destruct (credential_chosen w1 token Havail) as (tok & Hor & Htruthy & _).
    rewrite (construct_with_credential w1 token tok t Hor Htruthy).
    rewrite Htok in Hor.
    rewrite (construct_with_credential w2 token tok t Hor Htruthy).
    unfold configured_logger. rewrite Hdir, Hfile, Hlvl. reflexivity.
  - assert (Havail2 : credential_available w2 token = false)
      by (unfold credential_available in *; rewrite <- Htok; exact Havail).
    rewrite !construct_without_credential by assumption. reflexivity.
Qed.

Lemma log_level_ignores_case_witness :
  construct (setenv Fixtures.w_ok "SLACK_LOG_LEVEL" "Debug") None []
  = construct (setenv Fixtures.w_ok "SLACK_LOG_LEVEL" "DEBUG") None [].
Proof.
  apply (log_level_ignores_case Fixtures.w_ok "Debug" "DEBUG" None []).
  reflexivity.
Defined.

Example debug_level_instance :
  construct (setenv Fixtures.w_ok "SLACK_LOG_LEVEL" "Debug") None []
  = (Return (initialized "xoxb-env"
               {| logger_name := "slack_messenger";
                  logger_level := 10;
                  logger_file := "logs/slack_messenger.log" |}),
     [EvMkdir "logs"; EvAddHandler "logs/slack_messenger.log" 10]).
Proof. reflexivity. Qed.

(** ** The script *)

Section Script.

Variable w : World.

(** How much one send adds to the log and to the calls. *)
Lemma send_dm_footprint self user_id message formatting file_path t o t' :
  send_dm w self user_id message formatting file_path t = (o, t') ->
  exists ev,
    t' = t ++ ev
    /\ length (log_records ev) = 1%nat
    /\ (length (api_calls ev)
        <= if path_arg_truthy file_path then 3 else 2)%nat.
Proof.
  intros H.
  run_in H.
  all: injection H as <- <-.
  all: rewrite <- ?app_assoc; cbn [app].
  all: eexists; split; [reflexivity|].
  all: repeat match goal with
       | H : path_arg_truthy _ = _ |- _ => rewrite H
       end.
  all: cbn; split; [reflexivity|lia].
Qed.

End Script.

(** X19: the script can fail only while it builds the instance: it
    raises exactly when the constructor raises, with the constructor's
    exception, before any send; both of its sends use an id with the
    prefix and so cannot raise. *)
Theorem main_fails_only_in_constructor (w : World) (t t' : Trace) (e : exn) :
  main w t = (Raise e, t') <-> construct w None t = (Raise e, t').
Proof.
  unfold main. destruct (construct w None t) as [[slack|e0] t1] eqn:Hc.
  - destruct (send_dm_with_prefix_returns w slack "U1234567"
                "Hello! This is a test message." false None t1 eq_refl)
      as (b1 & t2 & ->).
    destruct (send_dm_with_prefix_returns w slack "U1234567"
                "*Important*: Please review the attached document." true
                (Some (PStr "path/to/document.pdf")) t2 eq_refl)
      as (b2 & t3 & ->).
    split; discriminate.
  - split; intros H; injection H as -> ->; reflexivity.
Qed.

(** X20: once the instance is built the script runs to its end
    whatever the two sends return: it has then logged exactly two
    records and made at most five remote calls. *)
Theorem main_attempts_both_sends (w : World) (t t1 : Trace)
    (slack : SlackMessenger) :
  construct w None t = (Return slack, t1) ->
  exists ev,
    main w t = (Return tt, t1 ++ ev)
    /\ length (log_records ev) = 2%nat
    /\ (length (api_calls ev) <= 5)%nat.
Proof.
  intros Hc. unfold main. rewrite Hc.
  destruct (send_dm_with_prefix_returns w slack "U1234567"
              "Hello! This is a test message." false None t1 eq_refl)
    as (b1 & t2 & H1).
  rewrite H1.
  destruct (send_dm_with_prefix_returns w slack "U1234567"
              "*Important*: Please review the attached document." true
              (Some (PStr "path/to/document.pdf")) t2 eq_refl)
    as (b2 & t3 & H2).
  rewrite H2.
  destruct (send_dm_footprint w _ _ _ _ _ _ _ _ H1) as (ev1 & -> & Hl1 & Ha1).
  destruct (send_dm_footprint w _ _ _ _ _ _ _ _ H2) as (ev2 & -> & Hl2 & Ha2).
  exists (ev1 ++ ev2). rewrite app_assoc. split; [reflexivity|].
  unfold log_records in *. rewrite api_calls_app, omap_app, !length_app.
  cbn in Ha1, Ha2. lia.
Qed.

Lemma main_attempts_both_sends_witness :
  exists ev,
    main Fixtures.w_ok []
    = (Return tt,
       [EvMkdir "logs"; EvAddHandler "logs/slack_messenger.log" 20] ++ ev)
    /\ length (log_records ev) = 2%nat
    /\ (length (api_calls ev) <= 5)%nat.
Proof.
  apply (main_attempts_both_sends Fixtures.w_ok []
           [EvMkdir "logs"; EvAddHandler "logs/slack_messenger.log" 20]
           Fixtures.messenger).
  reflexivity.
Defined.

Example main_without_document :
  main Fixtures.w_ok []
  = (Return tt,
     [EvMkdir "logs"; EvAddHandler "logs/slack_messenger.log" 20;
      EvApi (conversations_open ["U1234567"]);
      EvApi (chat_postMessage "D0001" "Hello! This is a test message." false);
      EvLog INFO "Successfully sent message to U1234567";
      EvLog ERROR "File not found: path/to/document.pdf"]).
Proof. reflexivity. Qed.

Example main_without_token :
  main Fixtures.w_no_token [] = (Raise missing_token_error, []).
Proof. reflexivity. Qed.

Lemma main_fails_only_in_constructor_witness :
  main Fixtures.w_bad_level []
  = (Raise (Exc AttributeError "module 'logging' has no attribute 'VERBOSE'"),
     [EvMkdir "logs"]).
Proof.
  apply (proj2 (main_fails_only_in_constructor Fixtures.w_bad_level []
                  [EvMkdir "logs"]
                  (Exc AttributeError
                     "module 'logging' has no attribute 'VERBOSE'"))).
  reflexivity.
Defined.
